(** * ReconnectWebSocket: a model of src/ReconnectWebSocket.js

    The class wraps one [ws] transport at a time and re-opens it after an
    unforced close.  The model is an event-driven machine: the instance
    fields ([this]) live in a [World] together with the host's pending
    timers, the handlers wired on each transport, and a log of every
    externally visible effect (emitted events, transports constructed,
    calls into a transport, timers armed, debug lines).  Methods and
    callbacks are written in a small state-and-exception monad; [step]
    dispatches one input of the host's event loop (a caller's method call,
    a timer firing, a transport event).

    Numbers that the source keeps as JavaScript doubles (intervals, the
    decay factor) are exact rationals here; counters are naturals.
    Listeners registered on the emitter are outside the model: [emit] is
    recorded as an effect and returns. *)

From Stdlib Require Import QArith Qminmax Qpower Lia.
From stdpp Require Import base option list gmap strings.

Local Open Scope string_scope.
Local Open Scope list_scope.

(** ** Data model *)

(** WebSocket.CONNECTING, OPEN, CLOSING, CLOSED. *)
Inductive ReadyState := CONNECTING | OPEN | CLOSING | CLOSED.

(** The [settings] object of the constructor (lines 13-40). *)
Record Settings := {
  debug : bool;
  automaticOpen : bool;
  reconnectInterval : Q;
  maxReconnectInterval : Q;
  reconnectDecay : Q;
  timeoutInterval : Q;
  maxReconnectAttempts : option nat;   (* null is [None] *)
  binaryType : string;
  reconnectAttempt : bool;
}.

Definition settings : Settings := {|
  debug := false;
  automaticOpen := true;
  reconnectInterval := 1000;
  maxReconnectInterval := 30000 * 2 * 5;
  reconnectDecay := 3 # 2;
  timeoutInterval := 2000;
  maxReconnectAttempts := None;
  binaryType := "blob";
  reconnectAttempt := false;
|}.

(** The caller's [options]: each key is present or absent. *)
Record Options := {
  o_debug : option bool;
  o_automaticOpen : option bool;
  o_reconnectInterval : option Q;
  o_maxReconnectInterval : option Q;
  o_reconnectDecay : option Q;
  o_timeoutInterval : option Q;
  o_maxReconnectAttempts : option (option nat);
  o_binaryType : option string;
  o_reconnectAttempt : option bool;
}.

Definition no_options : Options :=
  Build_Options None None None None None None None None None.

(** [Object.assign({}, settings, options)]. *)
Definition assign (s : Settings) (o : Options) : Settings := {|
  debug := default (debug s) (o_debug o);
  automaticOpen := default (automaticOpen s) (o_automaticOpen o);
  reconnectInterval := default (reconnectInterval s) (o_reconnectInterval o);
  maxReconnectInterval :=
    default (maxReconnectInterval s) (o_maxReconnectInterval o);
  reconnectDecay := default (reconnectDecay s) (o_reconnectDecay o);
  timeoutInterval := default (timeoutInterval s) (o_timeoutInterval o);
  maxReconnectAttempts :=
    default (maxReconnectAttempts s) (o_maxReconnectAttempts o);
  binaryType := default (binaryType s) (o_binaryType o);
  reconnectAttempt := default (reconnectAttempt s) (o_reconnectAttempt o);
|}.

(** The fields of [this].  Transports are named by the order in which they
    were constructed; [timedOut] is never initialised by the constructor
    (line 78 is commented out), and [undefined] is falsy like [false]. *)
Record Instance := {
  opts : Settings;
  url : string;
  protocols : option (list string);
  reconnectAttempts : nat;
  readyState : ReadyState;
  protocol : option string;
  ws : option nat;
  forcedClose : bool;
  timedOut : bool;
}.

Definition set_reconnectAttempts (n : nat) (t : Instance) : Instance :=
  Build_Instance (opts t) (url t) (protocols t) n (readyState t) (protocol t)
    (ws t) (forcedClose t) (timedOut t).
Definition set_readyState (r : ReadyState) (t : Instance) : Instance :=
  Build_Instance (opts t) (url t) (protocols t) (reconnectAttempts t) r
    (protocol t) (ws t) (forcedClose t) (timedOut t).
Definition set_protocol (p : option string) (t : Instance) : Instance :=
  Build_Instance (opts t) (url t) (protocols t) (reconnectAttempts t)
    (readyState t) p (ws t) (forcedClose t) (timedOut t).
Definition set_ws (k : option nat) (t : Instance) : Instance :=
  Build_Instance (opts t) (url t) (protocols t) (reconnectAttempts t)
    (readyState t) (protocol t) k (forcedClose t) (timedOut t).
Definition set_forcedClose (b : bool) (t : Instance) : Instance :=
  Build_Instance (opts t) (url t) (protocols t) (reconnectAttempts t)
    (readyState t) (protocol t) (ws t) b (timedOut t).
Definition set_timedOut (b : bool) (t : Instance) : Instance :=
  Build_Instance (opts t) (url t) (protocols t) (reconnectAttempts t)
    (readyState t) (protocol t) (ws t) (forcedClose t) b.

(** Events delivered to listeners by [this.emit]. *)
Inductive Emitted :=
| connecting (event : option string)
| open_event (event : string) (isReconnect : bool)
| close_event
| message (event : string)
| error (event : string).

(** The two callbacks the source hands to [setTimeout]. *)
Inductive Timer :=
| Stall (localWs : nat)     (* lines 104-111 *)
| Retry.                    (* lines 144-147 *)

Inductive Effect :=
| Emit (e : Emitted)
| NewWebSocket (k : nat) (u : string) (ps : list string)
| SetBinaryType (k : nat) (b : string)
| WsSend (k : nat) (data : string)
| WsClose (k : nat) (code : option nat) (reason : option string)
| SetTimeout (t : nat) (cb : Timer) (delay : Q)
| ConsoleDebug (tag : string).

Record World := {
  this : Instance;
  debugAll : bool;                (* ReconnectWebSocket.debugAll *)
  sockets : nat;                  (* transports constructed so far *)
  handlers : gmap nat nat;        (* transport |-> the [timeout] its handlers close over *)
  ws_protocol : gmap nat string;  (* the [protocol] property of each transport *)
  next_timer : nat;
  timers : gmap nat Timer;        (* pending timers *)
  log : list Effect;              (* effects so far, oldest first *)
}.

Definition with_this (f : Instance -> Instance) (w : World) : World :=
  Build_World (f (this w)) (debugAll w) (sockets w) (handlers w)
    (ws_protocol w) (next_timer w) (timers w) (log w).
Definition with_log (e : Effect) (w : World) : World :=
  Build_World (this w) (debugAll w) (sockets w) (handlers w) (ws_protocol w)
    (next_timer w) (timers w) (log w ++ [e]).
Definition with_socket (w : World) : World :=
  Build_World (this w) (debugAll w) (S (sockets w)) (handlers w)
    (ws_protocol w) (next_timer w) (timers w) (log w).
Definition with_handlers (k timeout : nat) (w : World) : World :=
  Build_World (this w) (debugAll w) (sockets w) (<[k:=timeout]> (handlers w))
    (ws_protocol w) (next_timer w) (timers w) (log w).
Definition with_ws_protocol (k : nat) (p : string) (w : World) : World :=
  Build_World (this w) (debugAll w) (sockets w) (handlers w)
    (<[k:=p]> (ws_protocol w)) (next_timer w) (timers w) (log w).
Definition with_timer (cb : Timer) (w : World) : World :=
  Build_World (this w) (debugAll w) (sockets w) (handlers w) (ws_protocol w)
    (S (next_timer w)) (<[next_timer w:=cb]> (timers w)) (log w).
Definition without_timer (t : nat) (w : World) : World :=
  Build_World (this w) (debugAll w) (sockets w) (handlers w) (ws_protocol w)
    (next_timer w) (delete t (timers w)) (log w).

(** ** The monad: state, and JavaScript's [throw] *)

Inductive outcome (A : Type) :=
| Return (a : A)
| Throw (e : string).
Arguments Return {A} a.
Arguments Throw {A} e.

Definition M (A : Type) : Type := World -> outcome A * World.

#[export] Instance M_ret : MRet M := fun A a w => (Return a, w).
#[export] Instance M_bind : MBind M := fun A B f m w =>
  match m w with
  | (Return a, w') => f a w'
  | (Throw e, w') => (Throw e, w')
  end.

Definition throw {A : Type} (e : string) : M A := fun w => (Throw e, w).
Definition get_this : M Instance := fun w => (Return (this w), w).
Definition update (f : Instance -> Instance) : M unit :=
  fun w => (Return tt, with_this f w).
Definition effect (e : Effect) : M unit := fun w => (Return tt, with_log e w).
Definition emit (e : Emitted) : M unit := effect (Emit e).

(** [if (this.debug || ReconnectWebSocket.debugAll) console.debug(..., tag, ...)] *)
Definition console_debug (tag : string) : M unit := fun w =>
  if debug (opts (this w)) || debugAll w
  then effect (ConsoleDebug tag) w
  else (Return tt, w).

(** [new WebSocket(u, ps)] *)
Definition new_WebSocket (u : string) (ps : list string) : M nat := fun w =>
  (Return (sockets w), with_log (NewWebSocket (sockets w) u ps) (with_socket w)).

Definition setTimeout (cb : Timer) (delay : Q) : M nat := fun w =>
  (Return (next_timer w),
   with_log (SetTimeout (next_timer w) cb delay) (with_timer cb w)).

Definition clearTimeout (t : nat) : M unit :=
  fun w => (Return tt, without_timer t w).

(** ** The transport's handlers (lines 113-164) *)

Definition Qgtb (a b : Q) : bool :=
  match (a ?= b)%Q with Gt => true | _ => false end.

(** Lines 143 and 147: the delay handed to the retry timer when the counter
    reads [n]. *)
Definition backoff (s : Settings) (n : nat) : Q :=
  let nextTimeout := (reconnectInterval s * reconnectDecay s ^ Z.of_nat n)%Q in
  if Qgtb nextTimeout (maxReconnectInterval s)
  then maxReconnectInterval s
  else nextTimeout.

(** [this.ws.protocol]: the empty string until the remote side has chosen. *)
Definition protocol_of (k : nat) : M string :=
  fun w => (Return (default "" (ws_protocol w !! k)), w).

(** [this.ws.onopen], closing over [timeout]. *)
Definition onopen (timeout : nat) (event : string) : M unit :=
  clearTimeout timeout;;
  console_debug "onopen";;
  t ← get_this;
  match ws t with
  | None => throw "TypeError: Cannot read properties of null"
  | Some k =>
      p ← protocol_of k;
      update (set_protocol (Some p));;
      update (set_readyState OPEN);;
      update (set_reconnectAttempts 0);;
      emit (open_event event (reconnectAttempt (opts t)))
  end.

(** [this.ws.onclose], closing over [timeout]. *)
Definition onclose (timeout : nat) (event : string) : M unit :=
  clearTimeout timeout;;
  update (set_ws None);;
  t ← get_this;
  if forcedClose t then
    update (set_readyState CLOSED);;
    emit close_event
  else
    update (set_readyState CONNECTING);;
    emit (connecting (Some event));;
    (if negb (reconnectAttempt (opts t)) && negb (timedOut t)
     then console_debug "onclose";; emit close_event
     else mret tt);;
    setTimeout Retry (backoff (opts t) (reconnectAttempts t));;
    mret tt.

Definition onmessage (event : string) : M unit :=
  console_debug "onmessage";;
  emit (message event).

Definition onerror (event : string) : M unit :=
  console_debug "onerror";;
  emit (error event).

(** Assigning the four handlers to transport [k]. *)
Definition wire (k timeout : nat) : M unit :=
  fun w => (Return tt, with_handlers k timeout w).

(** ** open (lines 86-165) *)

(** [this.maxReconnectAttempts && this.reconnectAttempts > this.maxReconnectAttempts]:
    [null] and [0] are falsy. *)
Definition exceeds (m : option nat) (n : nat) : bool :=
  match m with
  | Some m => negb (Nat.eqb m 0) && Nat.ltb m n
  | None => false
  end.

(** Lines 99-164, with [this.ws] being the transport [k] just constructed. *)
Definition attempt (k : nat) : M unit :=
  console_debug "attempt-connect";;
  t ← get_this;
  timeout ← setTimeout (Stall k) (timeoutInterval (opts t));
  wire k timeout.

(** The method takes no parameter: it reads the field [this.reconnectAttempt]. *)
Definition open : M unit :=
  t ← get_this;
  k ← new_WebSocket (url t) (default [] (protocols t));
  update (set_ws (Some k));;
  effect (SetBinaryType k (binaryType (opts t)));;
  if reconnectAttempt (opts t) then
    if exceeds (maxReconnectAttempts (opts t)) (reconnectAttempts t)
    then mret tt
    else attempt k
  else
    emit (connecting None);;
    update (set_reconnectAttempts 0);;
    attempt k.

(** ** Calls into a transport *)

(** What a transport does inside its [close(...)]: [Some event] when it
    runs its [onclose] handler before [close] returns, [None] when it
    reports the close later, as an input of its own. *)
Definition Answer : Type := option string.

Definition deliver_close (k : nat) (event : string) : M unit := fun w =>
  match handlers w !! k with
  | Some timeout => onclose timeout event w
  | None => (Return tt, w)
  end.

Definition ws_close (k : nat) (code : option nat) (reason : option string)
    (answer : Answer) : M unit :=
  effect (WsClose k code reason);;
  match answer with
  | Some event => deliver_close k event
  | None => mret tt
  end.

(** ** Timer callbacks *)

(** Lines 104-111, closing over [localWs]. *)
Definition stall_timeout (localWs : nat) (answer : Answer) : M unit :=
  console_debug "connection-timeout";;
  update (set_timedOut true);;
  ws_close localWs None None answer;;
  update (set_timedOut false).

(** Lines 144-147; the argument passed to [open] is dropped by it. *)
Definition retry_timeout : M unit :=
  t ← get_this;
  update (set_reconnectAttempts (reconnectAttempts t + 1));;
  open.

Definition run_timer (cb : Timer) (answer : Answer) : M unit :=
  match cb with
  | Stall localWs => stall_timeout localWs answer
  | Retry => retry_timeout
  end.

(** ** close, refresh, send (lines 173-207) *)

Definition close (code : option nat) (reason : option string)
    (answer : Answer) : M unit :=
  let code := default 1000 code in
  update (set_forcedClose true);;
  t ← get_this;
  match ws t with
  | Some k => ws_close k (Some code) reason answer
  | None => mret tt
  end.

Definition refresh (answer : Answer) : M unit :=
  t ← get_this;
  match ws t with
  | Some k => ws_close k None None answer
  | None => mret tt
  end.

(** The result of a call into the transport, handed back as it is. *)
Definition answered {A : Type} (r : outcome A) : M A := fun w => (r, w).

Definition INVALID_STATE_ERR : string :=
  "INVALID_STATE_ERR : Pausing to reconnect websocket".

Section Transport.

(** The transport's own [send]: what it returns, or throws, for a payload. *)
Variable ws_send : nat -> string -> outcome string.

Definition send (data : string) : M string :=
  t ← get_this;
  match ws t with
  | Some k =>
      console_debug "send";;
      effect (WsSend k data);;
      answered (ws_send k data)
  | None => throw INVALID_STATE_ERR
  end.

(** ** The host's event loop *)

Inductive Input :=
| call_open
| call_send (data : string)
| call_close (code : option nat) (reason : option string) (answer : Answer)
| call_refresh (answer : Answer)
| fire (t : nat) (answer : Answer)
| ws_open (k : nat) (proto : string) (event : string)
| ws_close_ev (k : nat) (event : string)
| ws_message (k : nat) (event : string)
| ws_error (k : nat) (event : string).

(** The remote side picks the sub-protocol of transport [k]. *)
Definition negotiated (k : nat) (proto : string) : M unit :=
  fun w => (Return tt, with_ws_protocol k proto w).

(** Run the handler wired on transport [k], if one was assigned. *)
Definition dispatch (k : nat) (h : nat -> M unit) : M unit := fun w =>
  match handlers w !! k with
  | Some timeout => h timeout w
  | None => (Return tt, w)
  end.

Definition step (i : Input) : M (option string) :=
  match i with
  | call_open => open;; mret None
  | call_send data => r ← send data; mret (Some r)
  | call_close code reason answer => close code reason answer;; mret None
  | call_refresh answer => refresh answer;; mret None
  | fire t answer => fun w =>
      match timers w !! t with
      | Some cb => (run_timer cb answer;; mret None) (without_timer t w)
      | None => (Return None, w)
      end
  | ws_open k proto event =>
      negotiated k proto;;
      dispatch k (fun timeout => onopen timeout event);;
      mret None
  | ws_close_ev k event =>
      dispatch k (fun timeout => onclose timeout event);; mret None
  | ws_message k event => dispatch k (fun _ => onmessage event);; mret None
  | ws_error k event => dispatch k (fun _ => onerror event);; mret None
  end.

(** The world after a sequence of inputs; an exception ends the turn that
    raised it and the loop goes on. *)
Fixpoint run (inputs : list Input) (w : World) : World :=
  match inputs with
  | [] => w
  | i :: inputs => run inputs (snd (step i w))
  end.

End Transport.

(** ** The constructor (lines 11-84) *)

Definition new_ReconnectWebSocket (u : string) (ps : option (list string))
    (o : Options) (dbgAll : bool) : outcome unit * World :=
  let s := assign settings o in
  let this0 := {|
    opts := s;
    url := u;
    reconnectAttempts := 0;
    readyState := CONNECTING;
    protocol := None;
    protocols := ps;
    ws := None;
    forcedClose := false;
    timedOut := false;
  |} in
  let w := Build_World this0 dbgAll 0 ∅ ∅ 0 ∅ [] in
  if automaticOpen s then open w else (Return tt, w).

(** ** Observations on the effect log *)

Definition emitted (w : World) : list Emitted :=
  omap (fun e => match e with Emit x => Some x | _ => None end) (log w).

(** The delays of the retry timers armed so far, oldest first. *)
Definition delays (w : World) : list Q :=
  omap (fun e => match e with SetTimeout _ Retry d => Some d | _ => None end)
    (log w).

Definition is_close (e : Emitted) : bool :=
  match e with close_event => true | _ => false end.

(** The [isReconnect] flags of the [open] events emitted so far. *)
Definition open_flags (w : World) : list bool :=
  omap (fun e => match e with Emit (open_event _ r) => Some r | _ => None end)
    (log w).

(** ** Predicates on inputs and worlds *)


Definition is_call_close (i : Input) : bool :=
  match i with call_close _ _ _ => true | _ => false end.

Definition is_ws_open (i : Input) : bool :=
  match i with ws_open _ _ _ => true | _ => false end.

(** No caller has closed the instance, and its state is CONNECTING or OPEN. *)
Definition cycling (w : World) : Prop :=
  forcedClose (this w) = false /\
  (readyState (this w) = CONNECTING \/ readyState (this w) = OPEN).


(** [protocol] is non-null only while the state is OPEN. *)
Definition protocol_only_while_open (w : World) : Prop :=
  protocol (this w) <> None -> readyState (this w) = OPEN.

(** ** Scenarios *)

(** A transport whose [send] returns [undefined]. *)
Definition ws_send_undefined : nat -> string -> outcome string :=
  fun _ _ => Return "undefined".

(** Every transport closes without opening and every retry timer fires:
    [n] such rounds, starting with transport [k].  A wired transport [k]
    holds the stall timer [2k]; its close arms the retry timer [2k+1]. *)
Fixpoint always_closing (n k : nat) : list Input :=
  match n with
  | 0 => []
  | S n => ws_close_ev k "gone" :: fire (2 * k + 1) None :: always_closing n (S k)
  end.

(** [new ReconnectWebSocket("ws://host")] *)
Definition defaults : World :=
  snd (new_ReconnectWebSocket "ws://host" None no_options false).

(** [{automaticOpen: true, reconnectInterval: 100, maxReconnectAttempts: 2}] *)
Definition limited : Options :=
  Build_Options None (Some true) (Some 100%Q) None None None (Some (Some 2))
    None None.

(** The same, with [reconnectAttempt: true] passed as an option. *)
Definition limited_reconnecting : Options :=
  Build_Options None (Some true) (Some 100%Q) None None None (Some (Some 2))
    None (Some true).

(** [{reconnectAttempt: true}] *)
Definition reconnecting : Options :=
  Build_Options None None None None None None None None (Some true).

(** The first transport has closed and the retry timer [1] is pending. *)
Definition in_gap : World :=
  run ws_send_undefined [ws_close_ev 0 "gone"] defaults.

(** A caller has closed the first transport, which has not yet reported it. *)
Definition closing : World :=
  run ws_send_undefined [call_close None None None] defaults.

(** The first transport has opened with sub-protocol "chat". *)
Definition chatting : World :=
  run ws_send_undefined [ws_open 0 "chat" "up"] defaults.

(** ** Further observations and scenarios *)

Definition is_debug (e : Effect) : bool :=
  match e with ConsoleDebug _ => true | _ => false end.

Definition is_WsClose (e : Effect) : bool :=
  match e with WsClose _ _ _ => true | _ => false end.

(** The inputs on which [open] runs: the caller's [open()] and a retry
    timer that is pending. *)
Definition constructs (i : Input) (w : World) : bool :=
  match i with
  | call_open => true
  | fire t _ => match timers w !! t with Some Retry => true | _ => false end
  | _ => false
  end.

(** [open] gives up after constructing the transport (line 92). *)
Definition over_limit (w : World) : bool :=
  reconnectAttempt (opts (this w)) &&
  exceeds (maxReconnectAttempts (opts (this w))) (reconnectAttempts (this w)).

(** Transport [k] is the one [open] made last, as the [k]-th round of
    [always_closing] finds it: owned, wired with the stall timer [2k], the
    counter reading [c]. *)
Definition attempting (k c : nat) (w : World) : Prop :=
  ws (this w) = Some k /\
  handlers w !! k = Some (2 * k) /\
  next_timer w = 2 * k + 1 /\
  sockets w = S k /\
  forcedClose (this w) = false /\
  timedOut (this w) = false /\
  reconnectAttempts (this w) = c.

(** [{automaticOpen: false}] *)
Definition manual : Options :=
  Build_Options None (Some false) None None None None None None None.

(** The caller has called [open()] while transport 0 was owned, and
    transport 0 has closed since: transport 1 is live, and none is owned. *)
Definition orphaned : World :=
  run ws_send_undefined [call_open; ws_close_ev 0 "gone"] defaults.

(** ** Reasoning about the monad *)

Ltac unfold_monad :=
  unfold console_debug, emit, effect, mbind, mret, M_bind, M_ret, throw,
    get_this, update, answered, wire, clearTimeout, setTimeout, new_WebSocket,
    protocol_of in *.

Ltac unfold_ops :=
  unfold step, dispatch, negotiated, run_timer, retry_timeout, stall_timeout,
    close, refresh, send, ws_close, deliver_close, open, attempt, onopen,
    onclose, onmessage, onerror in *.

(** Split on a scrutinee that contains no further case analysis. *)
Ltac inner_case :=
  match goal with
  | |- context [match ?x with _ => _ end] =>
      lazymatch x with
      | context [match _ with _ => _ end] => fail
      | _ => destruct x eqn:?
      end
  end.

Ltac crunch :=
  unfold_ops; unfold_monad;
  repeat (cbn [fst snd this opts url protocols reconnectAttempts readyState
                 protocol ws forcedClose timedOut debugAll sockets handlers
                 ws_protocol next_timer timers log
                 with_this with_log with_socket with_handlers with_ws_protocol
                 with_timer without_timer set_reconnectAttempts set_readyState
                 set_protocol set_ws set_forcedClose set_timedOut] in *;
          try inner_case; simplify_eq).

(** ** What every step preserves *)

Section Steps.
Variable ws_send : nat -> string -> outcome string.

Lemma step_cycling (i : Input) (w : World) :
  is_call_close i = false -> cycling w -> cycling (snd (step ws_send i w)).
Proof.
  unfold cycling. intros Hi [Hf Hr]. destruct i; try discriminate.
  all: crunch.
  all: try (split; auto; congruence).
Qed.

Lemma step_opts (i : Input) (w : World) :
  opts (this (snd (step ws_send i w))) = opts (this w).
Proof. destruct i; crunch; reflexivity. Qed.

Lemma run_cycling (inputs : list Input) (w : World) :
  forallb (fun i => negb (is_call_close i)) inputs = true ->
  cycling w -> cycling (run ws_send inputs w).
Proof.
  revert w. induction inputs as [|i inputs IH]; intros w Hin Hw; [exact Hw|].
  cbn [forallb] in Hin. apply andb_prop in Hin as [Hi Hin].
  cbn [run]. apply IH; [exact Hin|].
  apply step_cycling; [|exact Hw]. now destruct (is_call_close i).
Qed.

Lemma step_protocol (i : Input) (w : World) :
  is_ws_open i = false ->
  protocol (this (snd (step ws_send i w))) = protocol (this w).
Proof. intros Hi. destruct i; try discriminate; crunch; reflexivity. Qed.

(** Every [open] event carries the instance's [reconnectAttempt] setting. *)
Lemma step_open_flags (i : Input) (w : World) :
  Forall (eq (reconnectAttempt (opts (this w)))) (open_flags w) ->
  Forall (eq (reconnectAttempt (opts (this w))))
    (open_flags (snd (step ws_send i w))).
Proof.
  unfold open_flags. intros H. destruct i; crunch.
  all: repeat (rewrite ?omap_app, ?Forall_app; cbn [omap]).
  all: repeat split; auto.
  all: repeat constructor.
Qed.

Lemma run_open_flags (inputs : list Input) (w : World) :
  Forall (eq (reconnectAttempt (opts (this w)))) (open_flags w) ->
  Forall (eq (reconnectAttempt (opts (this w))))
    (open_flags (run ws_send inputs w)).
Proof.
  revert w. induction inputs as [|i inputs IH]; intros w H; [exact H|].
  cbn [run]. rewrite <- (step_opts i w). apply IH.
  rewrite step_opts. apply step_open_flags, H.
Qed.

End Steps.

Lemma new_cycling (u : string) (ps : option (list string)) (o : Options)
    (dbgAll : bool) :
  cycling (snd (new_ReconnectWebSocket u ps o dbgAll)).
Proof.
  unfold cycling, new_ReconnectWebSocket. crunch; auto.
Qed.

(** Over the whole life of an instance, [isReconnect] is the value its
    options gave to [reconnectAttempt] (false when they gave none). *)
Lemma isReconnect_constant (ws_send : nat -> string -> outcome string)
    (u : string) (ps : option (list string)) (o : Options) (dbgAll : bool)
    (inputs : list Input) :
  Forall (eq (default false (o_reconnectAttempt o)))
    (open_flags (run ws_send inputs (snd (new_ReconnectWebSocket u ps o dbgAll)))).
Proof.
  set (w := snd (new_ReconnectWebSocket u ps o dbgAll)).
  assert (E : reconnectAttempt (opts (this w)) = default false (o_reconnectAttempt o)
              /\ open_flags w = []).
  { subst w. unfold new_ReconnectWebSocket, open_flags. crunch.
    all: split; [reflexivity|].
    all: repeat (rewrite ?omap_app; cbn [omap]); reflexivity. }
  destruct E as [E1 E2]. rewrite <- E1. apply run_open_flags.
  rewrite E2. constructor.
Qed.

(** [open] constructs a transport on every path, the early return of line
    92 included. *)
Lemma open_constructs (w : World) :
  sockets (snd (open w)) = S (sockets w) /\
  ws (this (snd (open w))) = Some (sockets w).
Proof. crunch; auto. Qed.


(** The values the documented defaults give when the counter reads 0, 5, 50. *)
Lemma backoff_defaults :
  backoff settings 0 = 1000%Q /\
  (backoff settings 5 == 7593.75)%Q /\
  backoff settings 50 = 300000%Q.
Proof. vm_compute. repeat split. Qed.

(** An unforced close arms one retry timer, with the [backoff] delay of the
    counter's current value. *)
Lemma onclose_unforced (timeout : nat) (event : string) (w : World) :
  forcedClose (this w) = false ->
  let w' := snd (onclose timeout event w) in
  readyState (this w') = CONNECTING /\
  ws (this w') = None /\
  reconnectAttempts (this w') = reconnectAttempts (this w) /\
  delays w' = delays w ++ [backoff (opts (this w)) (reconnectAttempts (this w))] /\
  filter is_close (emitted w') =
    filter is_close (emitted w) ++
    (if negb (reconnectAttempt (opts (this w))) && negb (timedOut (this w))
     then [close_event] else []).
Proof.
  intros Hf. unfold delays, emitted. crunch.
  all: repeat split; auto.
  all: repeat (rewrite ?omap_app, ?filter_app; cbn [omap]).
  all: rewrite ?app_nil_r, <- ?app_assoc; try reflexivity.
Qed.

(** A successful open resets the counter and reports the instance's
    [reconnectAttempt] setting as [isReconnect]. *)
Lemma onopen_owned (timeout : nat) (event : string) (w : World) (k : nat) :
  ws (this w) = Some k ->
  let w' := snd (onopen timeout event w) in
  reconnectAttempts (this w') = 0 /\
  readyState (this w') = OPEN /\
  protocol (this w') = Some (default "" (ws_protocol w !! k)) /\
  emitted w' = emitted w ++ [open_event event (reconnectAttempt (opts (this w)))].
Proof.
  intros Hk. unfold emitted. crunch.
  all: repeat split; auto.
  all: repeat (rewrite ?omap_app; cbn [omap]).
  all: rewrite ?app_nil_r, <- ?app_assoc; try reflexivity.
Qed.

(** With the [reconnectAttempt] setting left at its default, the retry
    callback leaves the counter at 0: [open] takes its fresh branch. *)
Lemma retry_resets (w : World) :
  reconnectAttempt (opts (this w)) = false ->
  reconnectAttempts (this (snd (retry_timeout w))) = 0.
Proof. intros H. crunch; reflexivity. Qed.

(** With the setting on, the callback counts. *)
Lemma retry_counts (w : World) :
  reconnectAttempt (opts (this w)) = true ->
  reconnectAttempts (this (snd (retry_timeout w))) = reconnectAttempts (this w) + 1.
Proof. intros H. crunch; reflexivity. Qed.

(** ** After a forced close *)


Section Forced.
Variable ws_send : nat -> string -> outcome string.




End Forced.

(** * The claims *)

(** ** C1: no transport after [close()] *)

(** C1.  The claim is that no transport is constructed once [close()] has
    set [forcedClose], a retry timer pending at that moment included.  The
    retry callback does not read [forcedClose]: when [close()] is called in
    the gap between a close and the retry (no transport owned, retry timer
    [t] pending), [forcedClose] is set and the timer stays armed; when it
    fires, [open] constructs and owns a new transport. *)
Theorem retry_timer_outlives_close (ws_send : nat -> string -> outcome string)
    (w : World) (t : nat) (code : option nat) (reason : option string)
    (answer answer' : Answer) :
  ws (this w) = None ->
  timers w !! t = Some Retry ->
  let w1 := snd (step ws_send (call_close code reason answer) w) in
  let w2 := snd (step ws_send (fire t answer') w1) in
  forcedClose (this w1) = true /\
  sockets w1 = sockets w /\
  sockets w2 = S (sockets w) /\
  ws (this w2) = Some (sockets w) /\
  NewWebSocket (sockets w) (url (this w)) (default [] (protocols (this w)))
    ∈ log w2.
Proof.
  intros Hws Ht w1 w2.
  assert (E : w1 = with_this (set_forcedClose true) w).
  { subst w1. crunch; reflexivity. }
  subst w2. rewrite E. clear E w1.
  unfold step. cbn [timers with_this]. rewrite Ht.
  crunch.
  all: repeat split; auto.
  all: rewrite !elem_of_app, !list_elem_of_singleton; tauto.
Qed.

Lemma retry_timer_outlives_close_witness :
  let w1 := snd (step ws_send_undefined (call_close None None None) in_gap) in
  let w2 := snd (step ws_send_undefined (fire 1 None) w1) in
  forcedClose (this w1) = true /\
  sockets w1 = sockets in_gap /\
  sockets w2 = S (sockets in_gap) /\
  ws (this w2) = Some (sockets in_gap) /\
  NewWebSocket (sockets in_gap) (url (this in_gap))
    (default [] (protocols (this in_gap))) ∈ log w2.
Proof.
  apply (retry_timer_outlives_close ws_send_undefined in_gap 1 None None None None);
    reflexivity.
Defined.

(** The transport constructed after [close()] is wired like any other: if
    it opens, the closed instance reads OPEN again. *)
Example open_after_close :
  let w := run ws_send_undefined
             [ws_close_ev 0 "gone"; call_close None None None; fire 1 None;
              ws_open 1 "" "up"] defaults in
  forcedClose (this w) = true /\ readyState (this w) = OPEN /\ sockets w = 2.
Proof. vm_compute. auto. Qed.

(** ** C2: the limit on reconnect attempts *)

(** C2.  The claim is that a reconnect-mode [open()] past the limit
    constructs no transport, so that at most [maxReconnectAttempts]
    reconnect transports follow a disconnect.  With
    [{reconnectInterval: 100, maxReconnectAttempts: 2}] and a transport that
    always closes, five rounds construct five reconnect transports: every
    [open()] takes the fresh branch and resets the counter.  With the
    [reconnectAttempt] setting on, the limit is read, but after the
    transport is constructed: three reconnect transports are made, the third
    owned without handlers or stall timer. *)
Theorem limit_does_not_bound_transports :
  let w := run ws_send_undefined (always_closing 5 0)
             (snd (new_ReconnectWebSocket "ws://host" None limited false)) in
  let w' := run ws_send_undefined (always_closing 5 0)
              (snd (new_ReconnectWebSocket "ws://host" None
                      limited_reconnecting false)) in
  (sockets w = 6 /\ reconnectAttempts (this w) = 0 /\
   map Qred (delays w) = [100; 100; 100; 100; 100]%Q) /\
  (sockets w' = 4 /\ reconnectAttempts (this w') = 3 /\
   ws (this w') = Some 3 /\ handlers w' !! 3 = None /\
   timers w' = ∅ /\ map Qred (delays w') = [100; 150; 225]%Q).
Proof. vm_compute. repeat split. Qed.

(** ** C3: the backoff delay *)

(** C3.  The claim is that the [n]-th retry after the last successful open
    waits [min(reconnectInterval * reconnectDecay^n, maxReconnectInterval)].
    The close handler computes that expression over the counter
    ([backoff_min]), but with the defaults the counter reads 0 at every
    close, so six consecutive failed attempts wait 1000 ms each, where the
    claim has 1000, 1500, 2250, 3375, 5062.5, 7593.75. *)
Theorem delays_do_not_grow :
  let w := run ws_send_undefined (always_closing 6 0) defaults in
  delays w = [1000; 1000; 1000; 1000; 1000; 1000]%Q /\
  map Qred (map (backoff settings) (seq 0 6)) =
    [1000; 1500; 2250; 3375; 10125 # 2; 30375 # 4]%Q.
Proof. vm_compute. split; reflexivity. Qed.

(** ** C4: the attempt counter *)

(** C4.  The claim is that after [k] consecutive failed reconnect attempts
    the counter reads [k].  With the defaults it reads 0 after three of
    them: the retry callback increments it and [open], on its fresh branch,
    sets it back ([retry_resets]). *)
Theorem counter_reads_zero_after_failed_retries :
  let w := run ws_send_undefined (always_closing 3 0) defaults in
  sockets w = 4 /\ reconnectAttempts (this w) = 0.
Proof. vm_compute. split; reflexivity. Qed.

(** ** C5: one [close] event per connectivity loss *)

(** C5.  The claim is that one connectivity loss yields one [close] event
    over the whole retry loop.  With the defaults, a connection that opened
    and was lost, followed by two failed retries, emits three: the closes of
    the retry transports pass the test of line 136 like the first one. *)
Theorem close_emitted_on_every_retry :
  let w := run ws_send_undefined
             (ws_open 0 "" "up" :: always_closing 3 0) defaults in
  emitted w =
    [connecting None; open_event "up" false;
     connecting (Some "gone"); close_event; connecting None;
     connecting (Some "gone"); close_event; connecting None;
     connecting (Some "gone"); close_event; connecting None] /\
  length (filter is_close (emitted w)) = 3.
Proof. vm_compute. split; reflexivity. Qed.

(** ** C6: the [isReconnect] flag *)

(** C6.  The claim is that [isReconnect] is true exactly on an open that
    followed a reconnect attempt.  The payload carries the
    [reconnectAttempt] setting ([onopen_owned]), which nothing writes
    ([step_opts], [isReconnect_constant]): with the defaults a transport
    that opens on the first retry reports false, and with
    [{reconnectAttempt: true}] the very first open reports true. *)
Theorem isReconnect_is_the_setting :
  let w := run ws_send_undefined
             [ws_close_ev 0 "gone"; fire 1 None; ws_open 1 "" "up"] defaults in
  let w' := run ws_send_undefined [ws_open 0 "" "up"]
              (snd (new_ReconnectWebSocket "ws://host" None reconnecting false)) in
  (last (emitted w) = Some (open_event "up" false) /\
   reconnectAttempts (this w) = 0 /\ sockets w = 2) /\
  (emitted w' = [open_event "up" true] /\ sockets w' = 1).
Proof. vm_compute. repeat split. Qed.

(** A stall timeout sets [timedOut] only around the call to
    [localWs.close()]: a transport that runs its close handler inside that
    call finds the flag set, one that reports the close later finds it
    cleared and the handler emits [close]. *)
Example stall_close_sooner_or_later :
  emitted (run ws_send_undefined [fire 0 (Some "gone")] defaults) =
    [connecting None; connecting (Some "gone")] /\
  emitted (run ws_send_undefined [fire 0 None; ws_close_ev 0 "gone"] defaults) =
    [connecting None; connecting (Some "gone"); close_event].
Proof. vm_compute. split; reflexivity. Qed.

(** ** C7: [send] *)

(** C7.  With a transport owned, [send(data)] hands [data] to that
    transport's [send] (after a debug line when logging is on) and returns,
    or rethrows, its result; with none owned it throws INVALID_STATE_ERR.
    In both cases no field of the instance, no timer and no handler
    changes, and nothing is kept for later. *)
Theorem send_forwards_or_throws (ws_send : nat -> string -> outcome string)
    (data : string) (w : World) :
  (forall k : nat, ws (this w) = Some k ->
     send ws_send data w =
       (ws_send k data,
        with_log (WsSend k data)
          (if debug (opts (this w)) || debugAll w
           then with_log (ConsoleDebug "send") w else w)) /\
     this (snd (send ws_send data w)) = this w) /\
  (ws (this w) = None ->
     send ws_send data w = (Throw INVALID_STATE_ERR, w)).
Proof.
  split.
  - intros k Hk. unfold send. unfold_monad. cbn [fst snd]. rewrite Hk.
    destruct (debug (opts (this w)) || debugAll w); cbn [fst snd];
      destruct (ws_send k data); split; reflexivity.
  - intros Hk. unfold send. unfold_monad. cbn [fst snd]. rewrite Hk. reflexivity.
Qed.

Lemma send_forwards_or_throws_witness :
  (send ws_send_undefined "hello" defaults =
     (Return "undefined", with_log (WsSend 0 "hello") defaults) /\
   this (snd (send ws_send_undefined "hello" defaults)) = this defaults) /\
  send ws_send_undefined "hello" in_gap = (Throw INVALID_STATE_ERR, in_gap).
Proof.
  split.
  - apply (proj1 (send_forwards_or_throws ws_send_undefined "hello" defaults) 0).
    reflexivity.
  - apply (proj2 (send_forwards_or_throws ws_send_undefined "hello" in_gap)).
    reflexivity.
Defined.

(** ** C8: CLOSED only after the caller's [close()] *)

(** C8.  From construction, whatever the options, any sequence of inputs
    that holds no call of [close()] (transport events, timers firing,
    [send], [refresh], [open]) leaves [readyState] at CONNECTING or OPEN,
    hence never CLOSED; as every prefix of such a sequence is one, this
    holds at each point of it.  And when [forcedClose] is set, the close
    handler sets CLOSED, emits [close] and nothing else, arms no timer and
    constructs no transport. *)
Theorem closed_only_after_close_call (ws_send : nat -> string -> outcome string)
    (u : string) (ps : option (list string)) (o : Options) (dbgAll : bool)
    (inputs : list Input) (timeout : nat) (event : string) (w : World) :
  forallb (fun i => negb (is_call_close i)) inputs = true ->
  forcedClose (this w) = true ->
  let w1 := run ws_send inputs (snd (new_ReconnectWebSocket u ps o dbgAll)) in
  let w2 := snd (onclose timeout event w) in
  ((readyState (this w1) = CONNECTING \/ readyState (this w1) = OPEN) /\
   readyState (this w1) <> CLOSED) /\
  (readyState (this w2) = CLOSED /\
   log w2 = log w ++ [Emit close_event] /\
   timers w2 = delete timeout (timers w) /\
   next_timer w2 = next_timer w /\
   sockets w2 = sockets w /\
   ws (this w2) = None).
Proof.
  intros Hin Hf w1 w2. split.
  - destruct (run_cycling ws_send inputs _ Hin (new_cycling u ps o dbgAll))
      as [_ Hr].
    fold w1 in Hr. split; [exact Hr|]. destruct Hr as [Hr|Hr]; rewrite Hr; discriminate.
  - subst w2. crunch. repeat split.
Qed.

Lemma closed_only_after_close_call_witness :
  let w1 := run ws_send_undefined (ws_open 0 "" "up" :: always_closing 3 0)
              (snd (new_ReconnectWebSocket "ws://host" None no_options false)) in
  let w2 := snd (onclose 0 "bye" closing) in
  ((readyState (this w1) = CONNECTING \/ readyState (this w1) = OPEN) /\
   readyState (this w1) <> CLOSED) /\
  (readyState (this w2) = CLOSED /\
   log w2 = log closing ++ [Emit close_event] /\
   timers w2 = delete 0 (timers closing) /\
   next_timer w2 = next_timer closing /\
   sockets w2 = sockets closing /\
   ws (this w2) = None).
Proof.
  apply (closed_only_after_close_call ws_send_undefined "ws://host" None
           no_options false (ws_open 0 "" "up" :: always_closing 3 0) 0 "bye"
           closing); reflexivity.
Defined.

(** ** C9: the negotiated sub-protocol *)

(** After a transport that negotiated "chat" has opened and closed, the
    state is CONNECTING and [protocol] still reads "chat". *)
Lemma protocol_stale_after_close :
  let w := run ws_send_undefined
             [ws_open 0 "chat" "up"; ws_close_ev 0 "gone"] defaults in
  (readyState (this w) = CONNECTING /\ protocol (this w) = Some "chat") /\
  ~ protocol_only_while_open w.
Proof.
  split; [vm_compute; auto|].
  intros H. assert (E : CONNECTING = OPEN) by (apply H; vm_compute; discriminate).
  discriminate E.
Qed.

(** C9, amended.  [protocol] is null at construction and is written by the
    open handler alone, which sets it to the owned transport's sub-protocol
    as it sets the state to OPEN: over any sequence of inputs that holds no
    transport open (closes, timers, retries, caller's calls) it keeps its
    value, so it is null until the first open and, after a close, reads the
    last negotiated value until the next open. *)
Theorem protocol_written_by_onopen_only (ws_send : nat -> string -> outcome string)
    (u : string) (ps : option (list string)) (o : Options) (dbgAll : bool)
    (inputs : list Input) (w : World)
    (timeout : nat) (event : string) (k : nat) (w' : World) :
  forallb (fun i => negb (is_ws_open i)) inputs = true ->
  ws (this w') = Some k ->
  protocol (this (snd (new_ReconnectWebSocket u ps o dbgAll))) = None /\
  protocol (this (run ws_send inputs w)) = protocol (this w) /\
  (protocol (this (snd (onopen timeout event w'))) =
     Some (default "" (ws_protocol w' !! k)) /\
   readyState (this (snd (onopen timeout event w'))) = OPEN).
Proof.
  intros Hin Hk. split; [|split].
  - unfold new_ReconnectWebSocket. crunch; reflexivity.
  - clear Hk. revert w Hin.
    induction inputs as [|i inputs IH]; intros w Hin; [reflexivity|].
    cbn [forallb] in Hin. apply andb_prop in Hin as [Hi Hin].
    cbn [run]. rewrite IH by exact Hin.
    apply step_protocol. now destruct (is_ws_open i).
  - destruct (onopen_owned timeout event w' k Hk) as (_ & Hr & Hp & _). auto.
Qed.

Lemma protocol_written_by_onopen_only_witness :
  protocol (this (snd (new_ReconnectWebSocket "ws://host" None no_options false)))
    = None /\
  protocol (this (run ws_send_undefined (always_closing 2 0) chatting))
    = protocol (this chatting) /\
  (protocol (this (snd (onopen 0 "up" (with_ws_protocol 0 "chat" defaults)))) =
     Some (default "" (ws_protocol (with_ws_protocol 0 "chat" defaults) !! 0)) /\
   readyState (this (snd (onopen 0 "up" (with_ws_protocol 0 "chat" defaults))))
     = OPEN).
Proof.
  apply (protocol_written_by_onopen_only ws_send_undefined "ws://host" None
           no_options false (always_closing 2 0) chatting 0 "up" 0
           (with_ws_protocol 0 "chat" defaults)); reflexivity.
Defined.

(** ** C10: [refresh] without a transport *)

(** C10.  With no transport owned, [refresh()] returns normally and leaves
    the world as it was: no field, timer or handler changes and no effect
    (event, call, debug line) is added. *)
Theorem refresh_without_transport (answer : Answer) (w : World) :
  ws (this w) = None -> refresh answer w = (Return tt, w).
Proof.
  intros Hk. unfold refresh. unfold_monad. rewrite Hk. reflexivity.
Qed.

Lemma refresh_without_transport_witness :
  refresh None in_gap = (Return tt, in_gap).
Proof. apply (refresh_without_transport None in_gap); reflexivity. Defined.

(** * Further properties of the code *)

(** ** The constructor (lines 11-84) *)

(** X1.  With [automaticOpen] off the constructor touches nothing outside
    the instance: no transport, no timer, no event; the state reads
    CONNECTING, and until the caller calls [open()] every [send] throws
    INVALID_STATE_ERR. *)
Theorem constructor_without_automaticOpen
    (ws_send : nat -> string -> outcome string)
    (u : string) (ps : option (list string)) (o : Options) (dbgAll : bool)
    (data : string) :
  automaticOpen (assign settings o) = false ->
  let r := new_ReconnectWebSocket u ps o dbgAll in
  fst r = Return tt /\
  log (snd r) = [] /\ sockets (snd r) = 0 /\ timers (snd r) = ∅ /\
  ws (this (snd r)) = None /\ readyState (this (snd r)) = CONNECTING /\
  send ws_send data (snd r) = (Throw INVALID_STATE_ERR, snd r).
Proof.
  intros H. unfold new_ReconnectWebSocket. rewrite H. cbn [fst snd].
  repeat split; reflexivity.
Qed.

Lemma constructor_without_automaticOpen_witness :
  let r := new_ReconnectWebSocket "ws://host" None manual false in
  fst r = Return tt /\
  log (snd r) = [] /\ sockets (snd r) = 0 /\ timers (snd r) = ∅ /\
  ws (this (snd r)) = None /\ readyState (this (snd r)) = CONNECTING /\
  send ws_send_undefined "hello" (snd r) = (Throw INVALID_STATE_ERR, snd r).
Proof.
  apply (constructor_without_automaticOpen ws_send_undefined "ws://host" None
           manual false "hello"); reflexivity.
Defined.



(** ** Messages and errors (lines 151-164) *)

(** X3.  A message or an error of a wired transport, owned or not, is
    handed to the listeners as it came, as one [message] or [error] event;
    no field of the instance, no timer, no handler and no transport
    changes. *)
Theorem message_and_error_forwarded (ws_send : nat -> string -> outcome string)
    (k timeout : nat) (event : string) (w : World) :
  handlers w !! k = Some timeout ->
  let wm := snd (step ws_send (ws_message k event) w) in
  let we := snd (step ws_send (ws_error k event) w) in
  (emitted wm = emitted w ++ [message event] /\
   this wm = this w /\ timers wm = timers w /\
   handlers wm = handlers w /\ sockets wm = sockets w) /\
  (emitted we = emitted w ++ [error event] /\
   this we = this w /\ timers we = timers w /\
   handlers we = handlers w /\ sockets we = sockets w).
Proof.
  intros H. unfold emitted. crunch.
  all: repeat (rewrite ?omap_app; cbn [omap]).
  all: rewrite ?app_nil_r, <- ?app_assoc.
  all: repeat split; reflexivity.
Qed.

Lemma message_and_error_forwarded_witness :
  let wm := snd (step ws_send_undefined (ws_message 0 "tick") chatting) in
  let we := snd (step ws_send_undefined (ws_error 0 "tick") chatting) in
  (emitted wm = emitted chatting ++ [message "tick"] /\
   this wm = this chatting /\ timers wm = timers chatting /\
   handlers wm = handlers chatting /\ sockets wm = sockets chatting) /\
  (emitted we = emitted chatting ++ [error "tick"] /\
   this we = this chatting /\ timers we = timers chatting /\
   handlers we = handlers chatting /\ sockets we = sockets chatting).
Proof.
  apply (message_and_error_forwarded ws_send_undefined 0 0 "tick" chatting).
  reflexivity.
Defined.

(** ** close (lines 188-197) *)

(** X4.  [close(code, reason)] on an owned transport that reports its close
    later sets [forcedClose] and calls the transport's [close] with the
    code, 1000 when none was given, and the reason.  The state is not set
    to CLOSING and the transport stays owned: until its close event arrives
    [readyState] reads what it read before and [send] still forwards. *)
Theorem close_waits_for_the_transport (ws_send : nat -> string -> outcome string)
    (code : option nat) (reason : option string) (data : string)
    (k : nat) (w : World) :
  ws (this w) = Some k ->
  let w' := snd (close code reason None w) in
  forcedClose (this w') = true /\
  log w' = log w ++ [WsClose k (Some (default 1000 code)) reason] /\
  readyState (this w') = readyState (this w) /\
  ws (this w') = Some k /\
  timers w' = timers w /\
  fst (send ws_send data w') = ws_send k data.
Proof.
  intros H. crunch.
  all: repeat split; reflexivity.
Qed.

Lemma close_waits_for_the_transport_witness :
  let w' := snd (close None None None chatting) in
  forcedClose (this w') = true /\
  log w' = log chatting ++ [WsClose 0 (Some (default 1000 None)) None] /\
  readyState (this w') = readyState (this chatting) /\
  ws (this w') = Some 0 /\
  timers w' = timers chatting /\
  fst (send ws_send_undefined "late" w') = ws_send_undefined 0 "late".
Proof.
  apply (close_waits_for_the_transport ws_send_undefined None None "late" 0
           chatting).
  reflexivity.
Defined.

(** ** What constructs a transport *)

(** X5.  A step constructs a transport exactly when it runs [open]: on the
    caller's [open()] and on a pending retry timer firing, one transport
    each; a transport event, a stall timer, [send], [close] and [refresh]
    construct none. *)
Theorem transports_come_from_open (ws_send : nat -> string -> outcome string)
    (i : Input) (w : World) :
  sockets (snd (step ws_send i w)) =
  if constructs i w then S (sockets w) else sockets w.
Proof.
  unfold constructs. destruct i; crunch; reflexivity.
Qed.

(** ** Invariants of the event loop *)

Section Invariants.
Variable ws_send : nat -> string -> outcome string.


Lemma step_debugAll (i : Input) (w : World) :
  debugAll (snd (step ws_send i w)) = debugAll w.
Proof. destruct i; crunch; reflexivity. Qed.

Lemma step_quiet (i : Input) (w : World) :
  debug (opts (this w)) || debugAll w = false ->
  Forall (fun e => is_debug e = false) (log w) ->
  Forall (fun e => is_debug e = false) (log (snd (step ws_send i w))).
Proof.
  intros Hd H. destruct i; crunch.
  all: repeat (rewrite ?Forall_app, ?Forall_singleton).
  all: repeat split; auto.
Qed.

End Invariants.


(** X7.  With the instance's [debug] off and [debugAll] off, nothing is
    ever written to the console, by the constructor or by any later step. *)
Theorem silent_without_debug (ws_send : nat -> string -> outcome string)
    (u : string) (ps : option (list string)) (o : Options)
    (inputs : list Input) :
  debug (assign settings o) = false ->
  Forall (fun e => is_debug e = false)
    (log (run ws_send inputs (snd (new_ReconnectWebSocket u ps o false)))).
Proof.
  intros Hd.
  set (w0 := snd (new_ReconnectWebSocket u ps o false)).
  assert (H0 : (debug (opts (this w0)) || debugAll w0 = false) /\
               Forall (fun e => is_debug e = false) (log w0)).
  { subst w0. unfold new_ReconnectWebSocket. crunch.
    all: try (rewrite Hd in *; discriminate).
    all: split; [rewrite Hd; reflexivity|].
    all: repeat (rewrite ?Forall_app, ?Forall_singleton).
    all: repeat split; auto. }
  clearbody w0. revert w0 H0.
  induction inputs as [|i inputs IH]; intros w [Hq Hw]; [exact Hw|].
  cbn [run]. apply IH. split.
  - rewrite step_opts, step_debugAll. exact Hq.
  - apply step_quiet; assumption.
Qed.

Lemma silent_without_debug_witness :
  Forall (fun e => is_debug e = false)
    (log (run ws_send_undefined (ws_open 0 "" "up" :: always_closing 2 0)
            (snd (new_ReconnectWebSocket "ws://host" None limited false)))).
Proof.
  apply (silent_without_debug ws_send_undefined "ws://host" None limited
           (ws_open 0 "" "up" :: always_closing 2 0)).
  reflexivity.
Defined.

(** ** open (lines 86-165) *)

(** X8.  [open()] gives up exactly when the [reconnectAttempt] setting is
    on, [maxReconnectAttempts] is a non-zero number and the counter is
    above it.  Then the transport it has just constructed is owned but has
    no handler and no stall timer, nothing is emitted and no exception is
    thrown.  In every other case the new transport is wired and a stall
    timer of [timeoutInterval] is armed for it. *)
Theorem open_wires_unless_over_limit (w : World) :
  let w' := snd (open w) in
  fst (open w) = Return tt /\
  ws (this w') = Some (sockets w) /\
  if over_limit w
  then handlers w' = handlers w /\ timers w' = timers w /\
       next_timer w' = next_timer w /\ emitted w' = emitted w
  else handlers w' !! sockets w = Some (next_timer w) /\
       timers w' !! next_timer w = Some (Stall (sockets w)) /\
       SetTimeout (next_timer w) (Stall (sockets w))
         (timeoutInterval (opts (this w))) ∈ log w'.
Proof.
  unfold over_limit, emitted. crunch.
  all: repeat split; try reflexivity.
  all: repeat (rewrite ?omap_app; cbn [omap]); rewrite ?app_nil_r; try reflexivity.
  all: try apply lookup_insert_eq.
  all: rewrite !elem_of_app, !list_elem_of_singleton; tauto.
Qed.

(** X9.  A [maxReconnectAttempts] of 0 is no limit at all, like [null]:
    whatever the counter reads, [open()] wires the transport it constructs. *)
Theorem zero_limit_is_no_limit (w : World) :
  maxReconnectAttempts (opts (this w)) = Some 0 \/
  maxReconnectAttempts (opts (this w)) = None ->
  let w' := snd (open w) in
  handlers w' !! sockets w = Some (next_timer w) /\
  timers w' !! next_timer w = Some (Stall (sockets w)).
Proof.
  intros H w'.
  assert (E : over_limit w = false).
  { unfold over_limit. destruct H as [H|H]; rewrite H; cbn;
      apply andb_false_r. }
  pose proof (open_wires_unless_over_limit w) as (_ & _ & Hw).
  rewrite E in Hw. destruct Hw as (Hh & Ht & _). split; assumption.
Qed.

Lemma zero_limit_is_no_limit_witness :
  let w := with_this (set_reconnectAttempts 7)
             (snd (new_ReconnectWebSocket "ws://host" None
                     (Build_Options None None None None None None
                        (Some (Some 0)) None (Some true)) false)) in
  let w' := snd (open w) in
  handlers w' !! sockets w = Some (next_timer w) /\
  timers w' !! next_timer w = Some (Stall (sockets w)).
Proof.
  apply (zero_limit_is_no_limit
           (with_this (set_reconnectAttempts 7)
              (snd (new_ReconnectWebSocket "ws://host" None
                      (Build_Options None None None None None None
                         (Some (Some 0)) None (Some true)) false)))).
  left. reflexivity.
Defined.

(** ** The open handler (lines 113-125) *)

(** X10.  When a wired transport opens while no transport is owned (the
    caller called [open()] twice and the other transport has closed since),
    the handler throws a TypeError at [this.ws.protocol]: the stall timer of
    the transport is cancelled, but the state, the protocol and the counter
    keep their values and no [open] event is emitted. *)
Theorem open_of_an_orphan_throws (ws_send : nat -> string -> outcome string)
    (k timeout : nat) (proto event : string) (w : World) :
  handlers w !! k = Some timeout ->
  ws (this w) = None ->
  let r := step ws_send (ws_open k proto event) w in
  (exists e, fst r = Throw e) /\
  this (snd r) = this w /\
  emitted (snd r) = emitted w /\
  timers (snd r) = delete timeout (timers w).
Proof.
  intros Hh Hw. unfold emitted. crunch.
  all: repeat (rewrite ?omap_app; cbn [omap]); rewrite ?app_nil_r.
  all: repeat split; eauto.
Qed.

Lemma open_of_an_orphan_throws_witness :
  let r := step ws_send_undefined (ws_open 1 "" "up") orphaned in
  (exists e, fst r = Throw e) /\
  this (snd r) = this orphaned /\
  emitted (snd r) = emitted orphaned /\
  timers (snd r) = delete 1 (timers orphaned).
Proof.
  apply (open_of_an_orphan_throws ws_send_undefined 1 1 "" "up" orphaned);
    reflexivity.
Defined.

(** X11.  The open handler cancels the stall timer of its transport: once
    a transport has opened, the timer that guarded its attempt does nothing
    if the host still fires it. *)
Theorem stall_timer_cancelled_by_open (ws_send : nat -> string -> outcome string)
    (k timeout : nat) (proto event : string) (answer : Answer) (w : World) :
  handlers w !! k = Some timeout ->
  let w1 := snd (step ws_send (ws_open k proto event) w) in
  step ws_send (fire timeout answer) w1 = (Return None, w1).
Proof.
  intros Hh w1.
  assert (E : timers w1 !! timeout = None).
  { subst w1. crunch; apply lookup_delete_eq. }
  unfold step at 1. rewrite E. reflexivity.
Qed.

Lemma stall_timer_cancelled_by_open_witness :
  let w1 := snd (step ws_send_undefined (ws_open 0 "" "up") defaults) in
  step ws_send_undefined (fire 0 None) w1 = (Return None, w1).
Proof.
  apply (stall_timer_cancelled_by_open ws_send_undefined 0 0 "" "up" None
           defaults).
  reflexivity.
Defined.

(** ** close, refresh and the stall timer, followed through *)





(** X13.  [close()] on an owned, wired transport, followed by that
    transport's close event, ends in CLOSED with the transport released,
    its stall timer cancelled, exactly one [close] event and nothing else
    emitted, and no retry timer armed; it makes no difference whether the
    transport reports the close inside its [close] call or later. *)
Theorem close_then_transport_close (ws_send : nat -> string -> outcome string)
    (code : option nat) (reason : option string) (event : string)
    (k timeout : nat) (w : World) :
  ws (this w) = Some k ->
  handlers w !! k = Some timeout ->
  let later := run ws_send [call_close code reason None; ws_close_ev k event] w in
  let sooner := run ws_send [call_close code reason (Some event)] w in
  (readyState (this later) = CLOSED /\ ws (this later) = None /\
   forcedClose (this later) = true /\
   emitted later = emitted w ++ [close_event] /\
   timers later = delete timeout (timers w) /\
   delays later = delays w /\ sockets later = sockets w) /\
  sooner = later.
Proof.
  intros Hw Hh. unfold emitted, delays. cbn [run]. crunch.
  all: repeat (rewrite ?omap_app; cbn [omap]); rewrite ?app_nil_r.
  all: repeat split; reflexivity.
Qed.

Lemma close_then_transport_close_witness :
  let later := run ws_send_undefined
                 [call_close None None None; ws_close_ev 0 "bye"] chatting in
  let sooner := run ws_send_undefined [call_close None None (Some "bye")] chatting in
  (readyState (this later) = CLOSED /\ ws (this later) = None /\
   forcedClose (this later) = true /\
   emitted later = emitted chatting ++ [close_event] /\
   timers later = delete 0 (timers chatting) /\
   delays later = delays chatting /\ sockets later = sockets chatting) /\
  sooner = later.
Proof.
  apply (close_then_transport_close ws_send_undefined None None "bye" 0 0
           chatting); reflexivity.
Defined.

(** X14.  [refresh()] on an owned, wired transport of an instance that was
    not closed by the caller calls the transport's [close()] without code
    or reason and leaves [forcedClose] clear; when the transport then
    closes, the state goes to CONNECTING, [connecting] is emitted (and
    [close], unless the [reconnectAttempt] setting is on), and one retry
    timer is armed with the backoff delay of the counter; when that timer
    fires a new transport is constructed and owned. *)
Theorem refresh_reconnects (ws_send : nat -> string -> outcome string)
    (event : string) (k timeout : nat) (w : World) :
  ws (this w) = Some k ->
  handlers w !! k = Some timeout ->
  forcedClose (this w) = false ->
  timedOut (this w) = false ->
  let w1 := snd (refresh None w) in
  let w2 := run ws_send [ws_close_ev k event] w1 in
  let w3 := run ws_send [fire (next_timer w) None] w2 in
  (this w1 = this w /\ log w1 = log w ++ [WsClose k None None]) /\
  (readyState (this w2) = CONNECTING /\ ws (this w2) = None /\
   forcedClose (this w2) = false /\
   emitted w2 = emitted w ++ connecting (Some event) ::
                  (if reconnectAttempt (opts (this w)) then [] else [close_event]) /\
   delays w2 = delays w ++ [backoff (opts (this w)) (reconnectAttempts (this w))] /\
   timers w2 !! next_timer w = Some Retry) /\
  (sockets w3 = S (sockets w) /\ ws (this w3) = Some (sockets w)).
Proof.
  intros Hw Hh Hf Ht. unfold emitted, delays. cbn [run]. crunch.
  all: rewrite ?lookup_insert_eq in *; simplify_eq.
  all: crunch.
  all: repeat (rewrite ?omap_app; cbn [omap]); rewrite ?app_nil_r, <- ?app_assoc.
  all: repeat split; try reflexivity; try assumption.
  all: match goal with
       | H : context [timedOut _] |- _ =>
           rewrite Ht in H; cbn [negb andb] in H; discriminate H
       end.
Qed.

Lemma refresh_reconnects_witness :
  let w1 := snd (refresh None chatting) in
  let w2 := run ws_send_undefined [ws_close_ev 0 "gone"] w1 in
  let w3 := run ws_send_undefined [fire (next_timer chatting) None] w2 in
  (this w1 = this chatting /\ log w1 = log chatting ++ [WsClose 0 None None]) /\
  (readyState (this w2) = CONNECTING /\ ws (this w2) = None /\
   forcedClose (this w2) = false /\
   emitted w2 = emitted chatting ++ connecting (Some "gone") ::
                  (if reconnectAttempt (opts (this chatting)) then []
                   else [close_event]) /\
   delays w2 = delays chatting ++
                 [backoff (opts (this chatting)) (reconnectAttempts (this chatting))] /\
   timers w2 !! next_timer chatting = Some Retry) /\
  (sockets w3 = S (sockets chatting) /\ ws (this w3) = Some (sockets chatting)).
Proof.
  apply (refresh_reconnects ws_send_undefined "gone" 0 0 chatting); reflexivity.
Defined.

(** X15.  When the stall timer of a wired transport fires on an instance
    the caller has not closed, the transport's [close()] is called without
    code or reason, and its close leads to CONNECTING and one retry timer
    with the backoff delay.  [timedOut] keeps the handler from emitting
    [close] only if the transport runs it inside that [close()] call; when
    the close is reported later, [close] is emitted unless the
    [reconnectAttempt] setting is on. *)
Theorem stalled_attempt_is_closed_and_retried
    (ws_send : nat -> string -> outcome string)
    (t k timeout : nat) (event : string) (w : World) :
  timers w !! t = Some (Stall k) ->
  handlers w !! k = Some timeout ->
  forcedClose (this w) = false ->
  timedOut (this w) = false ->
  let later := run ws_send [fire t None; ws_close_ev k event] w in
  let sooner := run ws_send [fire t (Some event)] w in
  let d := backoff (opts (this w)) (reconnectAttempts (this w)) in
  (WsClose k None None ∈ log later /\
   readyState (this later) = CONNECTING /\ ws (this later) = None /\
   delays later = delays w ++ [d] /\
   emitted later = emitted w ++ connecting (Some event) ::
                     (if reconnectAttempt (opts (this w)) then []
                      else [close_event])) /\
  (WsClose k None None ∈ log sooner /\
   readyState (this sooner) = CONNECTING /\ ws (this sooner) = None /\
   delays sooner = delays w ++ [d] /\
   emitted sooner = emitted w ++ [connecting (Some event)]) /\
  timedOut (this later) = false /\ timedOut (this sooner) = false.
Proof.
  intros Htm Hh Hf Ht. unfold emitted, delays. cbn [run]. crunch.
  all: try match goal with
           | H : context [timedOut _] |- _ =>
               rewrite Ht in H; cbn [negb andb] in H; discriminate H
           end.
  all: repeat (rewrite ?omap_app; cbn [omap]); rewrite ?app_nil_r, <- ?app_assoc.
  all: repeat split; try reflexivity; try assumption.
  all: rewrite !elem_of_app, !list_elem_of_singleton; tauto.
Qed.

Lemma stalled_attempt_is_closed_and_retried_witness :
  let later := run ws_send_undefined [fire 0 None; ws_close_ev 0 "gone"] defaults in
  let sooner := run ws_send_undefined [fire 0 (Some "gone")] defaults in
  let d := backoff (opts (this defaults)) (reconnectAttempts (this defaults)) in
  (WsClose 0 None None ∈ log later /\
   readyState (this later) = CONNECTING /\ ws (this later) = None /\
   delays later = delays defaults ++ [d] /\
   emitted later = emitted defaults ++ connecting (Some "gone") ::
                     (if reconnectAttempt (opts (this defaults)) then []
                      else [close_event])) /\
  (WsClose 0 None None ∈ log sooner /\
   readyState (this sooner) = CONNECTING /\ ws (this sooner) = None /\
   delays sooner = delays defaults ++ [d] /\
   emitted sooner = emitted defaults ++ [connecting (Some "gone")]) /\
  timedOut (this later) = false /\ timedOut (this sooner) = false.
Proof.
  apply (stalled_attempt_is_closed_and_retried ws_send_undefined 0 0 0 "gone"
           defaults); reflexivity.
Defined.

(** ** The backoff delay (lines 143-147) *)




(** ** Rounds of failed attempts *)

Section Rounds.
Variable ws_send : nat -> string -> outcome string.

(** One round of [always_closing]: transport [k] closes, the retry timer
    fires, transport [k+1] is attempted. *)
Lemma round (k c : nat) (w : World) :
  attempting k c w ->
  (reconnectAttempt (opts (this w)) = true ->
   maxReconnectAttempts (opts (this w)) = None) ->
  let w' := run ws_send (always_closing 1 k) w in
  attempting (S k) (if reconnectAttempt (opts (this w)) then c + 1 else 0) w' /\
  opts (this w') = opts (this w) /\
  delays w' = delays w ++ [backoff (opts (this w)) c] /\
  filter is_close (emitted w') =
    filter is_close (emitted w) ++
    (if reconnectAttempt (opts (this w)) then [] else [close_event]).
Proof.
  unfold attempting. intros (Hw & Hh & Hn & Hs & Hf & Ht & Hc) Hm.
  cbn [always_closing run].
  set (w1 := snd (step ws_send (ws_close_ev k "gone") w)).
  assert (H1 : this w1 = set_readyState CONNECTING (set_ws None (this w)) /\
               timers w1 !! (2 * k + 1) = Some Retry /\
               next_timer w1 = 2 * k + 2 /\ sockets w1 = S k /\
               handlers w1 = handlers w /\
               delays w1 = delays w ++ [backoff (opts (this w)) c] /\
               filter is_close (emitted w1) =
                 filter is_close (emitted w) ++
                 (if reconnectAttempt (opts (this w)) then [] else [close_event])).
  { subst w1. unfold delays, emitted. crunch.
    all: try match goal with
             | H : context [timedOut _] |- _ =>
                 rewrite Ht in H; cbn [negb andb] in H; discriminate H
             end.
    all: repeat (rewrite ?omap_app, ?filter_app; cbn [omap]).
    all: rewrite ?app_nil_r, <- ?app_assoc.
    all: repeat split; try reflexivity; try lia.
    all: rewrite <- Hn; apply lookup_insert_eq. }
  clearbody w1. destruct H1 as (E1 & E2 & E3 & E4 & E5 & E6 & E7).
  destruct w1 as [t1 d1 s1 h1 p1 n1 tm1 l1].
  unfold delays, emitted in *.
  cbn [this timers next_timer sockets handlers log] in E1, E2, E3, E4, E5, E6, E7.
  subst t1 n1 s1 h1.
  destruct (reconnectAttempt (opts (this w))) eqn:Hr;
    [specialize (Hm eq_refl)|clear Hm].
  all: unfold step at 1; cbn [timers]; rewrite E2.
  all: crunch.
  all: try match goal with
           | H : exceeds _ _ = true |- _ => rewrite Hm in H; discriminate H
           end.
  all: repeat (rewrite ?omap_app, ?filter_app; cbn [omap]).
  all: rewrite ?E6, ?E7, ?app_nil_r.
  all: repeat split; try reflexivity; try assumption; try lia.
  all: replace (2 * S k) with (2 * k + 2) by lia; apply lookup_insert_eq.
Qed.

(** With the [reconnectAttempt] setting on and no limit, every round
    counts and the delay follows the counter. *)
Lemma rounds_reconnecting (n k c : nat) (w : World) :
  attempting k c w ->
  reconnectAttempt (opts (this w)) = true ->
  maxReconnectAttempts (opts (this w)) = None ->
  let w' := run ws_send (always_closing n k) w in
  attempting (n + k) (c + n) w' /\
  delays w' = delays w ++ map (backoff (opts (this w))) (seq c n) /\
  filter is_close (emitted w') = filter is_close (emitted w).
Proof.
  revert k c w. induction n as [|n IH]; intros k c w Ha Hr Hm.
  - cbn [always_closing run seq map]. rewrite Nat.add_0_r, app_nil_r. auto.
  - destruct (round k c w Ha (fun _ => Hm)) as (Ha' & Ho & Hd & He).
    rewrite Hr in Ha', He. rewrite app_nil_r in He.
    change (run ws_send (always_closing (S n) k) w)
      with (run ws_send (always_closing n (S k))
              (run ws_send (always_closing 1 k) w)).
    set (w1 := run ws_send (always_closing 1 k) w) in *. clearbody w1.
    destruct (IH (S k) (c + 1) w1 Ha') as (Ha2 & Hd2 & He2).
    { rewrite Ho. exact Hr. }
    { rewrite Ho. exact Hm. }
    cbn zeta in *. split; [|split].
    + replace (S n + k) with (n + S k) by lia.
      replace (c + S n) with (c + 1 + n) by lia. exact Ha2.
    + rewrite Hd2, Hd, Ho, <- app_assoc. cbn [seq map app].
      replace (c + 1) with (S c) by lia. reflexivity.
    + rewrite He2. exact He.
Qed.

(** With the setting off, every round ends with the counter at 0, waits
    the delay of a counter at 0 and emits [close]. *)
Lemma rounds_default (n k : nat) (w : World) :
  attempting k 0 w ->
  reconnectAttempt (opts (this w)) = false ->
  let w' := run ws_send (always_closing n k) w in
  attempting (n + k) 0 w' /\
  delays w' = delays w ++ repeat (backoff (opts (this w)) 0) n /\
  filter is_close (emitted w') = filter is_close (emitted w) ++ repeat close_event n.
Proof.
  revert k w. induction n as [|n IH]; intros k w Ha Hr.
  - cbn [always_closing run repeat]. rewrite !app_nil_r. auto.
  - destruct (round k 0 w Ha) as (Ha' & Ho & Hd & He).
    { rewrite Hr. discriminate. }
    rewrite Hr in Ha', He.
    change (run ws_send (always_closing (S n) k) w)
      with (run ws_send (always_closing n (S k))
              (run ws_send (always_closing 1 k) w)).
    set (w1 := run ws_send (always_closing 1 k) w) in *. clearbody w1.
    destruct (IH (S k) w1 Ha') as (Ha2 & Hd2 & He2).
    { rewrite Ho. exact Hr. }
    cbn zeta in *. split; [|split].
    + replace (S n + k) with (n + S k) by lia. exact Ha2.
    + rewrite Hd2, Hd, Ho, <- app_assoc. reflexivity.
    + rewrite He2, He, <- app_assoc. reflexivity.
Qed.

End Rounds.

Lemma new_attempting (u : string) (ps : option (list string)) (o : Options)
    (dbgAll : bool) :
  automaticOpen (assign settings o) = true ->
  let w := snd (new_ReconnectWebSocket u ps o dbgAll) in
  attempting 0 0 w /\ opts (this w) = assign settings o /\
  delays w = [] /\ filter is_close (emitted w) = [].
Proof.
  intros H. unfold attempting, delays, emitted, new_ReconnectWebSocket.
  rewrite H.
  assert (E : forall m, exceeds m 0 = false).
  { intros [[|m]|]; reflexivity. }
  crunch.
  all: try match goal with
           | Hx : exceeds _ 0 = true |- _ => rewrite E in Hx; discriminate Hx
           end.
  all: repeat split; try reflexivity; apply lookup_insert_eq.
Qed.

(** X18.  With [reconnectAttempt: true] passed as an option and no limit
    set, failed attempts back off as documented: after [n] rounds in which
    the transport closes and the retry timer fires, the counter reads [n],
    [n] reconnect transports have been constructed, the delays armed were
    the backoff delays of the counters 0 to [n-1], and no [close] event was
    emitted. *)
Theorem reconnecting_attempts_back_off (ws_send : nat -> string -> outcome string)
    (u : string) (ps : option (list string)) (o : Options) (dbgAll : bool)
    (n : nat) :
  automaticOpen (assign settings o) = true ->
  reconnectAttempt (assign settings o) = true ->
  maxReconnectAttempts (assign settings o) = None ->
  let w := run ws_send (always_closing n 0)
             (snd (new_ReconnectWebSocket u ps o dbgAll)) in
  reconnectAttempts (this w) = n /\ sockets w = S n /\
  ws (this w) = Some n /\
  delays w = map (backoff (assign settings o)) (seq 0 n) /\
  filter is_close (emitted w) = [].
Proof.
  intros Ha Hr Hm.
  destruct (new_attempting u ps o dbgAll Ha) as (H0 & Ho & Hd & He).
  destruct (rounds_reconnecting ws_send n 0 0 _ H0) as (H1 & Hd1 & He1).
  { rewrite Ho. exact Hr. }
  { rewrite Ho. exact Hm. }
  cbn zeta in *. rewrite Hd1, He1, Hd, He, Ho.
  destruct H1 as (Hw & _ & _ & Hs & _ & _ & Hc).
  rewrite Nat.add_0_r in *. cbn [Nat.add] in Hc. auto.
Qed.

Lemma reconnecting_attempts_back_off_witness :
  let w := run ws_send_undefined (always_closing 4 0)
             (snd (new_ReconnectWebSocket "ws://host" None reconnecting false)) in
  reconnectAttempts (this w) = 4 /\ sockets w = 5 /\
  ws (this w) = Some 4 /\
  delays w = map (backoff (assign settings reconnecting)) (seq 0 4) /\
  filter is_close (emitted w) = [].
Proof.
  apply (reconnecting_attempts_back_off ws_send_undefined "ws://host" None
           reconnecting false 4); reflexivity.
Defined.

(** X19.  With the [reconnectAttempt] setting left off, as it is by
    default, [n] rounds in which the transport closes and the retry timer
    fires construct [n] reconnect transports, whatever
    [maxReconnectAttempts] is; the counter reads 0 after each, every delay
    armed is the backoff delay of a counter at 0, and each of the [n]
    closes emits [close]. *)
Theorem default_attempts_start_afresh (ws_send : nat -> string -> outcome string)
    (u : string) (ps : option (list string)) (o : Options) (dbgAll : bool)
    (n : nat) :
  automaticOpen (assign settings o) = true ->
  reconnectAttempt (assign settings o) = false ->
  let w := run ws_send (always_closing n 0)
             (snd (new_ReconnectWebSocket u ps o dbgAll)) in
  reconnectAttempts (this w) = 0 /\ sockets w = S n /\
  ws (this w) = Some n /\
  delays w = repeat (backoff (assign settings o) 0) n /\
  filter is_close (emitted w) = repeat close_event n.
Proof.
  intros Ha Hr.
  destruct (new_attempting u ps o dbgAll Ha) as (H0 & Ho & Hd & He).
  destruct (rounds_default ws_send n 0 _ H0) as (H1 & Hd1 & He1).
  { rewrite Ho. exact Hr. }
  cbn zeta in *. rewrite Hd1, He1, Hd, He, Ho.
  destruct H1 as (Hw & _ & _ & Hs & _ & _ & Hc).
  rewrite Nat.add_0_r in *. auto.
Qed.

Lemma default_attempts_start_afresh_witness :
  let w := run ws_send_undefined (always_closing 4 0)
             (snd (new_ReconnectWebSocket "ws://host" None limited false)) in
  reconnectAttempts (this w) = 0 /\ sockets w = 5 /\
  ws (this w) = Some 4 /\
  delays w = repeat (backoff (assign settings limited) 0) 4 /\
  filter is_close (emitted w) = repeat close_event 4.
Proof.
  apply (default_attempts_start_afresh ws_send_undefined "ws://host" None
           limited false 4); reflexivity.
Defined.

(** ** open() on an instance that owns a transport *)

(** X20.  [open()] called while a transport is owned replaces it without
    closing it: no transport's [close] is called, and the old transport
    keeps its handlers.  When the old one closes afterwards, its handler
    releases whatever is owned, so the instance owns nothing although the
    new transport was never closed, and [send] throws INVALID_STATE_ERR. *)
Theorem open_leaves_the_old_transport_wired
    (ws_send : nat -> string -> outcome string)
    (k timeout : nat) (event data : string) (w : World) :
  ws (this w) = Some k ->
  handlers w !! k = Some timeout ->
  k < sockets w ->
  let w1 := run ws_send [call_open] w in
  let w2 := run ws_send [ws_close_ev k event] w1 in
  (ws (this w1) = Some (sockets w) /\ sockets w1 = S (sockets w) /\
   handlers w1 !! k = Some timeout /\
   filter is_WsClose (log w1) = filter is_WsClose (log w)) /\
  (ws (this w2) = None /\ sockets w2 = S (sockets w) /\
   filter is_WsClose (log w2) = filter is_WsClose (log w) /\
   send ws_send data w2 = (Throw INVALID_STATE_ERR, w2)).
Proof.
  intros Hw Hh Hk. cbn [run].
  set (w1 := snd (step ws_send call_open w)).
  assert (H1 : ws (this w1) = Some (sockets w) /\ sockets w1 = S (sockets w) /\
               handlers w1 !! k = Some timeout /\
               filter is_WsClose (log w1) = filter is_WsClose (log w)).
  { subst w1. crunch.
    all: repeat (rewrite ?filter_app; cbn [filter]).
    all: repeat split; try reflexivity; try assumption.
    all: try (rewrite lookup_insert_ne by lia; assumption).
    all: rewrite ?app_nil_r; reflexivity. }
  split; [exact H1|].
  destruct H1 as (E1 & E2 & E3 & E4). clearbody w1.
  rewrite <- E2, <- E4. clear E1 E2 E4 Hw Hh Hk.
  crunch.
  all: repeat (rewrite ?filter_app; cbn [filter]).
  all: rewrite ?app_nil_r.
  all: repeat split; reflexivity.
Qed.

Lemma open_leaves_the_old_transport_wired_witness :
  let w1 := run ws_send_undefined [call_open] chatting in
  let w2 := run ws_send_undefined [ws_close_ev 0 "gone"] w1 in
  (ws (this w1) = Some (sockets chatting) /\ sockets w1 = S (sockets chatting) /\
   handlers w1 !! 0 = Some 0 /\
   filter is_WsClose (log w1) = filter is_WsClose (log chatting)) /\
  (ws (this w2) = None /\ sockets w2 = S (sockets chatting) /\
   filter is_WsClose (log w2) = filter is_WsClose (log chatting) /\
   send ws_send_undefined "hello" w2 = (Throw INVALID_STATE_ERR, w2)).
Proof.
  apply (open_leaves_the_old_transport_wired ws_send_undefined 0 0 "gone"
           "hello" chatting); [reflexivity|reflexivity|].
  change (sockets chatting) with 1. lia.
Defined.
